(** * wangle/acceptor/TransportInfo.h: the per-connection telemetry record

    A shallow embedding of [struct TransportInfo] (and [HTTPHeaderSize])
    with the default member initialisers of the header, the accessor
    [getRttMs], and the kernel probes declared at the end of the struct.

    Conventions.
    - A fixed-width C++ integer is a [Z] tagged with its type (signedness
      and width); conversions into a type wrap modulo [2 ^ width].
      The data model is LP64: [int] has 32 bits and [size_t] 64.
    - A [std::chrono] duration is its tick count tagged with its period.
    - [std::shared_ptr<T>] and [folly::Optional<T>] are [option T]
      ([nullptr] / empty is [None]); no property below depends on sharing. *)

From Stdlib Require Import ZArith List String Ascii Bool Lia.
From coqutil Require Import Datatypes.RecordSetters.
Import ListNotations.
Import TriangleBracketNotations.
Local Open Scope Z_scope.

(** ** Fixed-width integers *)

Record int_type : Type := IntType { is_signed : bool; width : Z }.

Definition min_val (ty : int_type) : Z :=
  if is_signed ty then - 2 ^ (width ty - 1) else 0.

Definition max_val (ty : int_type) : Z :=
  if is_signed ty then 2 ^ (width ty - 1) - 1 else 2 ^ width ty - 1.

Definition in_range (ty : int_type) (z : Z) : bool :=
  (min_val ty <=? z) && (z <=? max_val ty).

(** Conversion of an arbitrary integer into [ty]: reduction modulo
    [2 ^ width], re-centred for the signed types. *)
Definition wrap (ty : int_type) (z : Z) : Z :=
  let m := 2 ^ width ty in
  let r := z mod m in
  if is_signed ty && (max_val ty <? r) then r - m else r.

Record cint (ty : int_type) : Type := CInt { cval : Z }.
Arguments CInt ty cval : clear implicits.
Arguments cval {ty} _.

Definition ty_of {ty : int_type} (_ : cint ty) : int_type := ty.

Definition to_cint (ty : int_type) (z : Z) : cint ty := CInt ty (wrap ty z).

Definition c_int : int_type := IntType true 32.
Definition c_int32 : int_type := IntType true 32.
Definition c_int64 : int_type := IntType true 64.
Definition c_uint8 : int_type := IntType false 8.
Definition c_uint16 : int_type := IntType false 16.
Definition c_uint32 : int_type := IntType false 32.
Definition c_uint64 : int_type := IntType false 64.
Definition c_size_t : int_type := IntType false 64.

Definition int : Type := cint c_int.
Definition int32_t : Type := cint c_int32.
Definition int64_t : Type := cint c_int64.
Definition uint8_t : Type := cint c_uint8.
Definition uint16_t : Type := cint c_uint16.
Definition uint32_t : Type := cint c_uint32.
Definition uint64_t : Type := cint c_uint64.
Definition size_t : Type := cint c_size_t.

(** ** std::chrono durations *)

(** [std::ratio<num, den>]. *)
Record ratio : Type := Ratio { num : Z; den : Z }.

Definition micro : ratio := Ratio 1 1000000.
Definition milli : ratio := Ratio 1 1000.
Definition nano : ratio := Ratio 1 1000000000.

(** [std::ratio_divide<R1, R2>], reduced to lowest terms with a positive
    denominator. *)
Definition ratio_divide (r1 r2 : ratio) : ratio :=
  let n := num r1 * den r2 in
  let d := den r1 * num r2 in
  let g := Z.gcd n d in
  Ratio (Z.sgn d * n / g) (Z.abs d / g).

(** [std::chrono::duration<int64_t, Period>]: the tick count. *)
Record duration (period : ratio) : Type := Duration { count : Z }.
Arguments Duration period count : clear implicits.
Arguments count {period} _.

Definition microseconds : Type := duration micro.
Definition milliseconds : Type := duration milli.

(** [std::chrono::steady_clock::time_point]: nanoseconds since the clock's
    epoch; value-initialisation gives the epoch. *)
Record time_point : Type := TimePoint { time_since_epoch : duration nano }.

(** [std::chrono::duration_cast<ToDuration>(d)], [time.duration.cast]:
    with [CF = ratio_divide<Period, ToPeriod>] the count is converted
    without division or multiplication where [CF::num] or [CF::den] is 1;
    [/] is C++ integer division, which truncates toward zero. *)
Definition duration_cast {from : ratio} (to : ratio) (d : duration from)
  : duration to :=
  let cf := ratio_divide from to in
  let c := count d in
  Duration to
    (if (num cf =? 1) && (den cf =? 1) then c
     else if den cf =? 1 then c * num cf
     else if num cf =? 1 then Z.quot c (den cf)
     else Z.quot (c * num cf) (den cf)).

(** ** Collaborator types *)

(** [folly::SocketAddress] (folly/SocketAddress.h): an opaque endpoint. *)
Record SocketAddress : Type :=
  { addr_host : string; addr_port : Z }.

(** Modelled from the spec: the declaration of [SSLResumeEnum]
    (wangle/ssl/SSLUtil.h) is missing; the spec gives the resumption state
    as one of new, resumed, not-applicable, and the header names the last
    one [NA]. *)
Inductive SSLResumeEnum : Type :=
| HANDSHAKE
| RESUMED
| NA.

(** [struct ProtocolInfo]: a polymorphic base with no members; a derived
    object is identified by an opaque payload. *)
Record ProtocolInfo : Type := { protocol_payload : list Z }.

(** [struct tcp_info] (netinet/tcp.h): the block filled by
    [getsockopt(TCP_INFO)]; the members the snapshot's metrics name, all
    32-bit unsigned except the 8-bit [tcpi_retransmits]. *)
Record tcp_info : Type :=
  { tcpi_rtt : Z;
    tcpi_rttvar : Z;
    tcpi_retransmits : Z;
    tcpi_total_retrans : Z;
    tcpi_rto : Z;
    tcpi_snd_cwnd : Z;
    tcpi_snd_mss : Z;
    tcpi_snd_ssthresh : Z }.

(** [tcp_info tcpinfo {}]: value-initialised, every member zero. *)
Definition tcp_info_zero : tcp_info :=
  {| tcpi_rtt := 0; tcpi_rttvar := 0; tcpi_retransmits := 0;
     tcpi_total_retrans := 0; tcpi_rto := 0; tcpi_snd_cwnd := 0;
     tcpi_snd_mss := 0; tcpi_snd_ssthresh := 0 |}.

(** ** HTTPHeaderSize *)

Record HTTPHeaderSize : Type :=
  { compressed : size_t;
    uncompressed : size_t;
    compressedBlock : size_t }.

Definition HTTPHeaderSize_default : HTTPHeaderSize :=
  {| compressed := CInt c_size_t 0;
     uncompressed := CInt c_size_t 0;
     compressedBlock := CInt c_size_t 0 |}.

(** ** TransportInfo *)

Record TransportInfo : Type :=
  { acceptTime : time_point;
    rtt : microseconds;
    rtt_var : int64_t;
    rtx : int64_t;
    rtx_tm : int64_t;
    rto : int64_t;
    cwnd : int64_t;
    cwndBytes : int64_t;
    mss : int64_t;
    ssthresh : int64_t;
    caAlgo : string;
    maxPacingRate : int32_t;
    tcpinfo : tcp_info;
    setupTime : milliseconds;
    sslSetupTime : milliseconds;
    sslCipher : option string;
    sslServerName : option string;
    sslClientCiphers : option string;
    sslClientCiphersHex : option string;
    sslClientComprMethods : option string;
    sslClientExts : option string;
    sslClientSigAlgs : option string;
    sslClientSupportedVersions : option string;
    sslSignature : option string;
    sslServerCiphers : option string;
    guessedUserAgent : option string;
    appProtocol : option string;
    totalBytes : int64_t;
    remoteAddr : option SocketAddress;
    localAddr : option SocketAddress;
    clientAddrOriginal : option SocketAddress;
    ingressHeader : HTTPHeaderSize;
    egressHeader : HTTPHeaderSize;
    timeToFirstHeaderByte : int32_t;
    timeToFirstByte : int32_t;
    timeToLastByte : int32_t;
    timeToFirstByteTx : int32_t;
    timeToLastByteTx : int32_t;
    timeToLastBodyByteAck : int32_t;
    lastByteAckLatency : int32_t;
    proxyLatency : int32_t;
    clientLatency : int32_t;
    serverLatency : int32_t;
    connectLatency : int32_t;
    egressBodySize : uint32_t;
    maybeFirstBodyByteOffset : option uint64_t;
    maybeLastBodyByteOffset : option uint64_t;
    tcpinfoErrno : int;
    sslSetupBytesWritten : uint32_t;
    sslSetupBytesRead : uint32_t;
    sslError : string;
    ingressBodySize : uint32_t;
    sslVersion : uint16_t;
    sslCertSigAlgName : option string;
    sslCertSize : uint16_t;
    statusCode : uint16_t;
    sslResume : SSLResumeEnum;
    validTcpinfo : bool;
    secure : bool;
    securityType : string;
    protocolInfo : option ProtocolInfo;
    tcpSignature : option string;
    tcpFingerprint : option string;
    tfoSucceded : bool;
    negotiatedTokenBindingKeyParameters : option uint8_t }.

(** The implicit default constructor: every member takes its default
    member initialiser; members without one ([std::string],
    [std::shared_ptr], [folly::Optional], [HTTPHeaderSize]) are
    default-constructed. *)
Definition TransportInfo_default : TransportInfo :=
  {| acceptTime := TimePoint (Duration nano 0);
     rtt := Duration micro 0;
     rtt_var := CInt c_int64 (-1);
     rtx := CInt c_int64 (-1);
     rtx_tm := CInt c_int64 (-1);
     rto := CInt c_int64 (-1);
     cwnd := CInt c_int64 (-1);
     cwndBytes := CInt c_int64 (-1);
     mss := CInt c_int64 (-1);
     ssthresh := CInt c_int64 (-1);
     caAlgo := EmptyString;
     maxPacingRate := CInt c_int32 (-1);
     tcpinfo := tcp_info_zero;
     setupTime := Duration milli 0;
     sslSetupTime := Duration milli 0;
     sslCipher := None;
     sslServerName := None;
     sslClientCiphers := None;
     sslClientCiphersHex := None;
     sslClientComprMethods := None;
     sslClientExts := None;
     sslClientSigAlgs := None;
     sslClientSupportedVersions := None;
     sslSignature := None;
     sslServerCiphers := None;
     guessedUserAgent := None;
     appProtocol := None;
     totalBytes := CInt c_int64 0;
     remoteAddr := None;
     localAddr := None;
     clientAddrOriginal := None;
     ingressHeader := HTTPHeaderSize_default;
     egressHeader := HTTPHeaderSize_default;
     timeToFirstHeaderByte := CInt c_int32 (-1);
     timeToFirstByte := CInt c_int32 (-1);
     timeToLastByte := CInt c_int32 (-1);
     timeToFirstByteTx := CInt c_int32 (-1);
     timeToLastByteTx := CInt c_int32 (-1);
     timeToLastBodyByteAck := CInt c_int32 (-1);
     lastByteAckLatency := CInt c_int32 (-1);
     proxyLatency := CInt c_int32 (-1);
     clientLatency := CInt c_int32 (-1);
     serverLatency := CInt c_int32 (-1);
     connectLatency := CInt c_int32 (-1);
     egressBodySize := CInt c_uint32 0;
     maybeFirstBodyByteOffset := None;
     maybeLastBodyByteOffset := None;
     tcpinfoErrno := CInt c_int 0;
     sslSetupBytesWritten := CInt c_uint32 0;
     sslSetupBytesRead := CInt c_uint32 0;
     sslError := EmptyString;
     ingressBodySize := CInt c_uint32 0;
     sslVersion := CInt c_uint16 0;
     sslCertSigAlgName := None;
     sslCertSize := CInt c_uint16 0;
     statusCode := CInt c_uint16 0;
     sslResume := NA;
     validTcpinfo := false;
     secure := false;
     securityType := EmptyString;
     protocolInfo := None;
     tcpSignature := None;
     tcpFingerprint := None;
     tfoSucceded := false;
     negotiatedTokenBindingKeyParameters := None |}.

(** ** Views of the record *)

(** The byte-relative latencies of the record, in declaration order. *)
Definition latencies (t : TransportInfo) : list int32_t :=
  [ timeToFirstHeaderByte t; timeToFirstByte t; timeToLastByte t;
    timeToFirstByteTx t; timeToLastByteTx t; timeToLastBodyByteAck t;
    lastByteAckLatency t; proxyLatency t; clientLatency t;
    serverLatency t; connectLatency t ].

(** A counter with its C++ type. *)
Definition typed {ty : int_type} (x : cint ty) : int_type * Z :=
  (ty_of x, cval x).

(** The header and body byte counters: the three members of both header
    sizes and the two body sizes. *)
Definition size_counters (t : TransportInfo) : list (int_type * Z) :=
  [ typed (compressed (ingressHeader t));
    typed (uncompressed (ingressHeader t));
    typed (compressedBlock (ingressHeader t));
    typed (compressed (egressHeader t));
    typed (uncompressed (egressHeader t));
    typed (compressedBlock (egressHeader t));
    typed (ingressBodySize t);
    typed (egressBodySize t) ].

(** All byte counters: the sizes and the total number of bytes. *)
Definition byte_counters (t : TransportInfo) : list (int_type * Z) :=
  size_counters t ++ [ typed (totalBytes t) ].

(** The metrics derived from the kernel's TCP-info block. *)
Definition tcp_metrics (t : TransportInfo) : list int64_t :=
  [ rtt_var t; rtx t; rtx_tm t; rto t; cwnd t; cwndBytes t; mss t;
    ssthresh t ].

(** The address members. *)
Definition addresses (t : TransportInfo) :=
  (remoteAddr t, localAddr t, clientAddrOriginal t).

(** The members the TLS layer fills: the secure flag and security type,
    the resumption state, the negotiated and the client-offered
    parameters, certificate data, handshake byte counts and error, and the
    fingerprints. *)
Definition security (t : TransportInfo) :=
  (secure t, securityType t, sslResume t, sslVersion t, sslCipher t,
   sslServerName t, sslClientCiphers t, sslClientCiphersHex t,
   sslClientComprMethods t, sslClientExts t, sslClientSigAlgs t,
   sslClientSupportedVersions t, sslSignature t, sslServerCiphers t,
   guessedUserAgent t, appProtocol t, sslCertSigAlgName t, sslCertSize t,
   sslSetupTime t, sslSetupBytesWritten t, sslSetupBytesRead t, sslError t,
   tcpSignature t, tcpFingerprint t,
   negotiatedTokenBindingKeyParameters t).

(** Every member other than the TCP and congestion ones ([rtt],
    [rtt_var], [rtx], [rtx_tm], [rto], [cwnd], [cwndBytes], [mss],
    [ssthresh], [caAlgo], [maxPacingRate], [tcpinfo], [tcpinfoErrno],
    [validTcpinfo]), in declaration order. *)
Definition outside_tcp (t : TransportInfo) :=
  (acceptTime t, setupTime t, sslSetupTime t, sslCipher t, sslServerName t,
   sslClientCiphers t, sslClientCiphersHex t, sslClientComprMethods t,
   sslClientExts t, sslClientSigAlgs t, sslClientSupportedVersions t,
   sslSignature t, sslServerCiphers t, guessedUserAgent t, appProtocol t,
   totalBytes t, remoteAddr t, localAddr t, clientAddrOriginal t,
   ingressHeader t, egressHeader t, timeToFirstHeaderByte t,
   timeToFirstByte t, timeToLastByte t, timeToFirstByteTx t,
   timeToLastByteTx t, timeToLastBodyByteAck t, lastByteAckLatency t,
   proxyLatency t, clientLatency t, serverLatency t, connectLatency t,
   egressBodySize t, maybeFirstBodyByteOffset t, maybeLastBodyByteOffset t,
   sslSetupBytesWritten t, sslSetupBytesRead t, sslError t,
   ingressBodySize t, sslVersion t, sslCertSigAlgName t, sslCertSize t,
   statusCode t, sslResume t, secure t, securityType t, protocolInfo t,
   tcpSignature t, tcpFingerprint t, tfoSucceded t,
   negotiatedTokenBindingKeyParameters t).

(** Every integer member of the record with its declared type, in
    declaration order; the three durations appear with their tick count,
    whose representation is a signed 64-bit integer. *)
Definition integer_members (t : TransportInfo) : list (int_type * Z) :=
  [ (c_int64, count (rtt t)); typed (rtt_var t); typed (rtx t);
    typed (rtx_tm t); typed (rto t); typed (cwnd t); typed (cwndBytes t);
    typed (mss t); typed (ssthresh t); typed (maxPacingRate t);
    (c_int64, count (setupTime t)); (c_int64, count (sslSetupTime t));
    typed (totalBytes t);
    typed (compressed (ingressHeader t));
    typed (uncompressed (ingressHeader t));
    typed (compressedBlock (ingressHeader t));
    typed (compressed (egressHeader t));
    typed (uncompressed (egressHeader t));
    typed (compressedBlock (egressHeader t));
    typed (timeToFirstHeaderByte t); typed (timeToFirstByte t);
    typed (timeToLastByte t); typed (timeToFirstByteTx t);
    typed (timeToLastByteTx t); typed (timeToLastBodyByteAck t);
    typed (lastByteAckLatency t); typed (proxyLatency t);
    typed (clientLatency t); typed (serverLatency t);
    typed (connectLatency t); typed (egressBodySize t);
    typed (tcpinfoErrno t); typed (sslSetupBytesWritten t);
    typed (sslSetupBytesRead t); typed (ingressBodySize t);
    typed (sslVersion t); typed (sslCertSize t); typed (statusCode t) ].

Definition is_set {A : Type} (o : option A) : bool :=
  match o with
  | Some _ => true
  | None => false
  end.

(** Whether each nullable member ([std::shared_ptr], [folly::Optional])
    holds a value, in declaration order. *)
Definition nullable_members (t : TransportInfo) : list bool :=
  [ is_set (sslCipher t); is_set (sslServerName t);
    is_set (sslClientCiphers t); is_set (sslClientCiphersHex t);
    is_set (sslClientComprMethods t); is_set (sslClientExts t);
    is_set (sslClientSigAlgs t); is_set (sslClientSupportedVersions t);
    is_set (sslSignature t); is_set (sslServerCiphers t);
    is_set (guessedUserAgent t); is_set (appProtocol t);
    is_set (remoteAddr t); is_set (localAddr t);
    is_set (clientAddrOriginal t); is_set (maybeFirstBodyByteOffset t);
    is_set (maybeLastBodyByteOffset t); is_set (sslCertSigAlgName t);
    is_set (protocolInfo t); is_set (tcpSignature t);
    is_set (tcpFingerprint t);
    is_set (negotiatedTokenBindingKeyParameters t) ].

(** The encoding the member comments give for a transport that is not
    SSL: [secure] false, [sslResume] neither new nor resumed, [sslVersion]
    zero, cipher and server name null. *)
Definition non_ssl (t : TransportInfo) : bool :=
  negb (secure t)
  && match sslResume t with NA => true | _ => false end
  && (cval (sslVersion t) =? 0)
  && negb (is_set (sslCipher t))
  && negb (is_set (sslServerName t)).

(** Field updates [t <| f := v |>] for the members the probes write. *)
#[local] Instance set_rtt : Setter rtt :=
  ltac:(setter TransportInfo microseconds rtt).
#[local] Instance set_rtt_var : Setter rtt_var :=
  ltac:(setter TransportInfo int64_t rtt_var).
#[local] Instance set_rtx : Setter rtx :=
  ltac:(setter TransportInfo int64_t rtx).
#[local] Instance set_rtx_tm : Setter rtx_tm :=
  ltac:(setter TransportInfo int64_t rtx_tm).
#[local] Instance set_rto : Setter rto :=
  ltac:(setter TransportInfo int64_t rto).
#[local] Instance set_cwnd : Setter cwnd :=
  ltac:(setter TransportInfo int64_t cwnd).
#[local] Instance set_cwndBytes : Setter cwndBytes :=
  ltac:(setter TransportInfo int64_t cwndBytes).
#[local] Instance set_mss : Setter mss :=
  ltac:(setter TransportInfo int64_t mss).
#[local] Instance set_ssthresh : Setter ssthresh :=
  ltac:(setter TransportInfo int64_t ssthresh).
#[local] Instance set_caAlgo : Setter caAlgo :=
  ltac:(setter TransportInfo string caAlgo).
#[local] Instance set_maxPacingRate : Setter maxPacingRate :=
  ltac:(setter TransportInfo int32_t maxPacingRate).
#[local] Instance set_tcpinfo : Setter tcpinfo :=
  ltac:(setter TransportInfo tcp_info tcpinfo).
#[local] Instance set_tcpinfoErrno : Setter tcpinfoErrno :=
  ltac:(setter TransportInfo int tcpinfoErrno).
#[local] Instance set_validTcpinfo : Setter validTcpinfo :=
  ltac:(setter TransportInfo bool validTcpinfo).

(** [std::chrono::milliseconds getRttMs() const]. *)
Definition getRttMs (t : TransportInfo) : milliseconds :=
  duration_cast milli (rtt t).

(** ** The kernel and the probes

    TransportInfo.cpp, which holds the bodies of [initWithSocket],
    [readTcpCongestionControl], [readMaxPacingRate], [readRTT] and
    [readTcpInfo], is not among the verified sources; the header gives
    their signatures only.  The definitions of this section follow the
    written specification of the probes. *)

(** Modelled from the spec: the platform the probes are built for (the
    conditional compilation of the header); the spec names the variants
    Linux-style, BSD-style and unsupported, and gates the full TCP-info,
    congestion-control and pacing-rate probes on the first two. *)
Inductive Platform : Type :=
| LinuxStyle
| BSDStyle
| Unsupported.

Definition tcp_diagnostics (p : Platform) : bool :=
  match p with
  | LinuxStyle | BSDStyle => true
  | Unsupported => false
  end.

(** [folly::AsyncSocket], as far as the probes use it: the native
    descriptor.  A closed or invalid socket is one whose descriptor the
    kernel rejects. *)
Record AsyncSocket : Type := { getFd : Z }.

(** The outcome of one kernel query: the value obtained, or the platform
    error code ([errno]) of the failed call. *)
Inductive query (A : Type) : Type :=
| Answer (a : A)
| Refused (e : int).
Arguments Answer {A} a.
Arguments Refused {A} e.

Inductive Status : Type :=
| Done
| Failed (e : int).

Definition succeeded (s : Status) : bool :=
  match s with
  | Done => true
  | Failed _ => false
  end.

(** Modelled from the spec: the kernel as the probes see it, one query per
    probe, each fallible on its own.  The TCP-info query writes into the
    caller's buffer; what it leaves there when it fails is the kernel's
    choice (the spec leaves the buffer unspecified on failure). *)
Record Kernel : Type :=
  { platform : Platform;
    sys_srtt : Z -> query Z;
    sys_tcp_info : Z -> tcp_info -> Status * tcp_info;
    sys_congestion : Z -> query (list ascii);
    sys_max_pacing_rate : Z -> query Z }.

(** The OS-defined maximum length of a congestion-control name
    ([TCP_CA_NAME_MAX], 16 on Linux and FreeBSD). *)
Definition TCP_CA_NAME_MAX : nat := 16.

Definition NUL : ascii := Ascii.zero.

(** The C string held by a buffer: the bytes before the first null byte. *)
Fixpoint c_str (buf : list ascii) : list ascii :=
  match buf with
  | [] => []
  | c :: rest => if Ascii.eqb c NUL then [] else c :: c_str rest
  end.

(** [isspace] in the C locale: space and the controls 9 to 13. *)
Definition isspace (c : ascii) : bool :=
  let n := nat_of_ascii c in
  Nat.eqb n 32 || (Nat.leb 9 n && Nat.leb n 13).

Fixpoint drop_spaces (l : list ascii) : list ascii :=
  match l with
  | [] => []
  | c :: rest => if isspace c then drop_spaces rest else l
  end.

Definition trim (l : list ascii) : list ascii :=
  rev (drop_spaces (rev (drop_spaces l))).

(** A text is trimmed when neither its first nor its last byte is a
    space. *)
Definition is_trimmed (l : list ascii) : bool :=
  negb (isspace (hd NUL l)) && negb (isspace (last l NUL)).

(** What a successful run stores: the kernel's buffer, cut to the maximum
    length and at the first null byte, then trimmed. *)
Definition ca_name_of (buf : list ascii) : list ascii :=
  trim (c_str (firstn TCP_CA_NAME_MAX buf)).

(** Modelled from the spec: the body of [TransportInfo::readRTT] is
    missing.  It returns the kernel's smoothed round-trip-time estimate in
    microseconds, or [-1] if unsupported or the query fails. *)
Definition readRTT (k : Kernel) (sock : AsyncSocket) : int64_t :=
  match platform k with
  | Unsupported => CInt c_int64 (-1)
  | _ =>
      match sys_srtt k (getFd sock) with
      | Answer us => to_cint c_int64 us
      | Refused _ => CInt c_int64 (-1)
      end
  end.

(** Modelled from the spec: the body of [TransportInfo::readTcpInfo] is
    missing.  It issues the TCP-info query into the given buffer and
    reports success or the failure with its error code; the buffer after a
    failure is whatever the kernel left. *)
Definition readTcpInfo (k : Kernel) (buf : tcp_info) (sock : AsyncSocket)
  : Status * tcp_info :=
  sys_tcp_info k (getFd sock) buf.

(** Modelled from the spec: the body of
    [TransportInfo::readTcpCongestionControl] is missing.  On success the
    name, trimmed and non-empty, is stored; on failure the name field is
    empty.  The kernel's answer is read through a buffer of
    [TCP_CA_NAME_MAX] bytes as a C string. *)
Definition readTcpCongestionControl (k : Kernel) (sock : AsyncSocket)
    (t : TransportInfo) : bool * TransportInfo :=
  match sys_congestion k (getFd sock) with
  | Answer buf =>
      match ca_name_of buf with
      | [] => (false, t <| caAlgo := EmptyString |>)
      | name => (true, t <| caAlgo := string_of_list_ascii name |>)
      end
  | Refused _ => (false, t <| caAlgo := EmptyString |>)
  end.

(** Modelled from the spec: the body of [TransportInfo::readMaxPacingRate]
    is missing.  On success the kernel's maximum pacing rate (bytes per
    second) is stored; on failure the field is at its sentinel [-1]. *)
Definition readMaxPacingRate (k : Kernel) (sock : AsyncSocket)
    (t : TransportInfo) : bool * TransportInfo :=
  match sys_max_pacing_rate k (getFd sock) with
  | Answer rate => (true, t <| maxPacingRate := to_cint c_int32 rate |>)
  | Refused _ =>
      (false, t <| maxPacingRate := maxPacingRate TransportInfo_default |>)
  end.

(** The metrics derived from a TCP-info block; the congestion window in
    bytes is the window in segments times the segment size. *)
Definition store_tcp_info (ti : tcp_info) (t : TransportInfo)
  : TransportInfo :=
  t <| tcpinfo := ti |>
    <| rtt_var := to_cint c_int64 (tcpi_rttvar ti) |>
    <| rtx := to_cint c_int64 (tcpi_total_retrans ti) |>
    <| rtx_tm := to_cint c_int64 (tcpi_retransmits ti) |>
    <| rto := to_cint c_int64 (tcpi_rto ti) |>
    <| cwnd := to_cint c_int64 (tcpi_snd_cwnd ti) |>
    <| mss := to_cint c_int64 (tcpi_snd_mss ti) |>
    <| cwndBytes := to_cint c_int64 (tcpi_snd_cwnd ti * tcpi_snd_mss ti) |>
    <| ssthresh := to_cint c_int64 (tcpi_snd_ssthresh ti) |>.

(** The same metrics back at their construction defaults. *)
Definition clear_tcp_metrics (t : TransportInfo) : TransportInfo :=
  t <| rtt_var := rtt_var TransportInfo_default |>
    <| rtx := rtx TransportInfo_default |>
    <| rtx_tm := rtx_tm TransportInfo_default |>
    <| rto := rto TransportInfo_default |>
    <| cwnd := cwnd TransportInfo_default |>
    <| mss := mss TransportInfo_default |>
    <| cwndBytes := cwndBytes TransportInfo_default |>
    <| ssthresh := ssthresh TransportInfo_default |>.

Definition probeRtt (k : Kernel) (sock : AsyncSocket) (t : TransportInfo)
  : bool * TransportInfo :=
  let us := cval (readRTT k sock) in
  if us =? -1 then (false, t <| rtt := rtt TransportInfo_default |>)
  else (true, t <| rtt := Duration micro us |>).

Definition probeTcpInfo (k : Kernel) (sock : AsyncSocket) (t : TransportInfo)
  : bool * TransportInfo :=
  if tcp_diagnostics (platform k) then
    match readTcpInfo k (tcpinfo t) sock with
    | (Done, buf) => (true, store_tcp_info buf t <| validTcpinfo := true |>)
    | (Failed e, buf) =>
        (false, clear_tcp_metrics t <| tcpinfo := buf |>
                  <| validTcpinfo := false |> <| tcpinfoErrno := e |>)
    end
  else (false, clear_tcp_metrics t <| validTcpinfo := false |>).

Definition probeCongestionControl (k : Kernel) (sock : AsyncSocket)
    (t : TransportInfo) : bool * TransportInfo :=
  if tcp_diagnostics (platform k) then readTcpCongestionControl k sock t
  else (false, t <| caAlgo := EmptyString |>).

Definition probeMaxPacingRate (k : Kernel) (sock : AsyncSocket)
    (t : TransportInfo) : bool * TransportInfo :=
  if tcp_diagnostics (platform k) then readMaxPacingRate k sock t
  else (false, t <| maxPacingRate := maxPacingRate TransportInfo_default |>).

(** Modelled from the spec: the body of [TransportInfo::initWithSocket] is
    missing.  It runs the probes in sequence (round-trip time, then, where
    supported, full TCP info, congestion-control name, pacing rate); each
    probe stores what it obtained or leaves its fields at their sentinel,
    a probe that now fails resetting what an earlier call stored; only the
    TCP-info probe records the error code.  The valid flag tells whether
    the TCP-info query succeeded.  The call succeeds when some probe
    did. *)
Definition initWithSocket (k : Kernel) (sock : AsyncSocket)
    (t : TransportInfo) : bool * TransportInfo :=
  let '(ok_rtt, t1) := probeRtt k sock t in
  let '(ok_info, t2) := probeTcpInfo k sock t1 in
  let '(ok_ca, t3) := probeCongestionControl k sock t2 in
  let '(ok_rate, t4) := probeMaxPacingRate k sock t3 in
  (ok_rtt || ok_info || ok_ca || ok_rate, t4).


(** The kernel's answer to a platform-gated query: none where the platform
    lacks the probe. *)
Definition gated {A : Type} (k : Kernel) (answer : A) : option A :=
  if tcp_diagnostics (platform k) then Some answer else None.

(** Whether the TCP-info query of a call of [initWithSocket] on [t]
    succeeds: the platform has the probe and the kernel fills the
    buffer. *)
Definition tcp_info_query_ok (k : Kernel) (sock : AsyncSocket)
    (t : TransportInfo) : bool :=
  tcp_diagnostics (platform k)
  && succeeded (fst (readTcpInfo k (tcpinfo t) sock)).

(** The snapshots reachable from construction by calls of
    [initWithSocket], each call on a kernel and socket of its own, with
    the outcome of the TCP-info query of the last call ([None] before the
    first call). *)
Inductive populated : option bool -> TransportInfo -> Prop :=
| populated_fresh : populated None TransportInfo_default
| populated_init (k : Kernel) (sock : AsyncSocket) (last : option bool)
    (t : TransportInfo) :
    populated last t ->
    populated (Some (tcp_info_query_ok k sock t))
      (snd (initWithSocket k sock t)).

(** ** A call through the socket pointer *)

(** How a call ends: it returns a value, or it does not return (a thrown
    exception, an abort, or the undefined behaviour of a null
    dereference). *)
Inductive outcome (A : Type) : Type :=
| Returned (a : A)
| Aborted.
Arguments Returned {A} a.
Arguments Aborted {A}.

Definition and_then {A B : Type} (c : outcome A) (f : A -> outcome B)
  : outcome B :=
  match c with
  | Returned a => f a
  | Aborted => Aborted
  end.

(** [const folly::AsyncSocket*]: null, or the address of a socket. *)
Definition socket_ptr : Type := option AsyncSocket.

Definition is_null (p : socket_ptr) : bool :=
  match p with
  | None => true
  | Some _ => false
  end.

(** [*sock]: a null pointer has nothing to give, the call ends there. *)
Definition deref (p : socket_ptr) : outcome AsyncSocket :=
  match p with
  | Some s => Returned s
  | None => Aborted
  end.

(** Modelled from the spec: the body of [TransportInfo::readRTT] is
    missing; this is the call as the header declares it, on a pointer.
    The spec requires that an invalid socket neither throws nor aborts and
    that failure is the value [-1]: a null pointer is answered [-1] before
    anything is dereferenced, and any other pointer is dereferenced and
    probed as [readRTT] above. *)
Definition readRTT_call (k : Kernel) (p : socket_ptr) : outcome int64_t :=
  if is_null p then Returned (CInt c_int64 (-1))
  else and_then (deref p) (fun s => Returned (readRTT k s)).

(** The kernel's smoothed round-trip-time estimate for the socket behind
    a pointer, where there is one: the pointer is not null, the platform
    has the query and the kernel answers it. *)
Definition rtt_estimate (k : Kernel) (p : socket_ptr) : option Z :=
  match p with
  | None => None
  | Some s =>
      if tcp_diagnostics (platform k) then
        match sys_srtt k (getFd s) with
        | Answer us => Some us
        | Refused _ => None
        end
      else None
  end.

(** ** Sample kernels *)

Definition EBADF : int := CInt c_int 9.
Definition ENOPROTOOPT : int := CInt c_int 92.
Definition ENOTCONN : int := CInt c_int 107.

Definition sample_tcp_info : tcp_info :=
  {| tcpi_rtt := 1500; tcpi_rttvar := 250; tcpi_retransmits := 1;
     tcpi_total_retrans := 3; tcpi_rto := 204000; tcpi_snd_cwnd := 10;
     tcpi_snd_mss := 1448; tcpi_snd_ssthresh := 2147483647 |}.

(** A Linux-style kernel on which descriptor 3 is a connected TCP socket
    and every other descriptor is bad. *)
Definition linux_kernel : Kernel :=
  {| platform := LinuxStyle;
     sys_srtt := fun fd => if fd =? 3 then Answer 1500 else Refused EBADF;
     sys_tcp_info := fun fd buf =>
       if fd =? 3 then (Done, sample_tcp_info) else (Failed EBADF, buf);
     sys_congestion := fun fd =>
       if fd =? 3 then Answer (list_ascii_of_string "cubic" ++ [NUL])
       else Refused EBADF;
     sys_max_pacing_rate := fun fd =>
       if fd =? 3 then Answer 125000 else Refused EBADF |}.

(** A Linux-style kernel that knows the round-trip time and the
    congestion-control name of descriptor 3 but refuses the TCP-info and
    the pacing-rate queries. *)
Definition partial_kernel : Kernel :=
  {| platform := LinuxStyle;
     sys_srtt := fun fd => if fd =? 3 then Answer 1500 else Refused EBADF;
     sys_tcp_info := fun fd buf => (Failed ENOTCONN, buf);
     sys_congestion := fun fd =>
       if fd =? 3 then Answer (list_ascii_of_string "bbr" ++ [NUL])
       else Refused EBADF;
     sys_max_pacing_rate := fun fd => Refused ENOPROTOOPT |}.

Definition open_socket : AsyncSocket := {| getFd := 3 |}.
Definition closed_socket : AsyncSocket := {| getFd := -1 |}.

(** * Properties *)

(** ** Integer conversions *)

Lemma wrap_in_range (ty : int_type) (z : Z) :
  0 < width ty -> in_range ty z = true -> wrap ty z = z.
Proof.
  unfold in_range, wrap, min_val, max_val.
  intros Hw Hr. apply andb_prop in Hr. destruct Hr as [Hlo Hhi].
  apply Z.leb_le in Hlo. apply Z.leb_le in Hhi.
  assert (Hpow : 2 ^ width ty = 2 * 2 ^ (width ty - 1)).
  { rewrite <- Z.pow_succ_r by lia. f_equal. lia. }
  assert (Hpos : 0 < 2 ^ (width ty - 1)) by (apply Z.pow_pos_nonneg; lia).
  destruct (is_signed ty); cbn [andb] in *.
  - destruct (Z_lt_le_dec z 0) as [Hneg | Hnn].
    + assert (Hm : z mod 2 ^ width ty = z + 2 ^ width ty).
      { symmetry. apply Z.mod_unique with (q := -1); lia. }
      rewrite Hm.
      destruct (Z.ltb_spec (2 ^ (width ty - 1) - 1) (z + 2 ^ width ty)); lia.
    + rewrite Z.mod_small by lia.
      destruct (Z.ltb_spec (2 ^ (width ty - 1) - 1) z); lia.
  - apply Z.mod_small. lia.
Qed.

Lemma wrap_range (ty : int_type) (z : Z) :
  0 < width ty -> in_range ty (wrap ty z) = true.
Proof.
  unfold in_range, wrap, min_val, max_val. intros Hw.
  assert (Hpow : 2 ^ width ty = 2 * 2 ^ (width ty - 1)).
  { rewrite <- Z.pow_succ_r by lia. f_equal. lia. }
  assert (Hpos : 0 < 2 ^ (width ty - 1)) by (apply Z.pow_pos_nonneg; lia).
  assert (Hm : 0 <= z mod 2 ^ width ty < 2 ^ width ty)
    by (apply Z.mod_pos_bound; lia).
  apply andb_true_intro.
  destruct (is_signed ty); cbn [andb].
  - destruct (Z.ltb_spec (2 ^ (width ty - 1) - 1) (z mod 2 ^ width ty));
      split; apply Z.leb_le; lia.
  - split; apply Z.leb_le; lia.
Qed.

(** ** duration_cast from microseconds to milliseconds *)

Lemma ratio_divide_micro_milli : ratio_divide micro milli = Ratio 1 1000.
Proof. reflexivity. Qed.

Lemma duration_cast_micro_milli (d : microseconds) :
  count (duration_cast milli d) = Z.quot (count d) 1000.
Proof. reflexivity. Qed.

(** ** Construction defaults *)

(** C1 (as stated, refuted): on a freshly constructed snapshot the
    retransmit counts [rtx] and [rtx_tm] are not [0], and the round-trip
    time is not [-1]: the header initialises the counts with [-1] and the
    round-trip time with a zero duration. *)
Lemma congestion_defaults_counterexample :
  cval (rtx TransportInfo_default) <> 0 /\
  cval (rtx_tm TransportInfo_default) <> 0 /\
  count (rtt TransportInfo_default) <> -1.
Proof. cbn. repeat split; discriminate. Qed.

(** C1 (amended): on a freshly constructed snapshot RTT variance, both
    retransmit counts, retransmission timeout, congestion window in
    segments and in bytes, slow-start threshold and max pacing rate all
    hold [-1], the retransmit counts included; the round-trip time holds
    the zero duration. *)
Theorem congestion_defaults :
  let t := TransportInfo_default in
  count (rtt t) = 0 /\
  cval (rtt_var t) = -1 /\
  cval (rtx t) = -1 /\
  cval (rtx_tm t) = -1 /\
  cval (rto t) = -1 /\
  cval (cwnd t) = -1 /\
  cval (cwndBytes t) = -1 /\
  cval (ssthresh t) = -1 /\
  cval (maxPacingRate t) = -1.
Proof. cbn. repeat split; reflexivity. Qed.

(** C7 (as stated, refuted): on a freshly constructed snapshot the TCP
    setup duration and the TLS setup duration are not [-1]; the header
    initialises both with a zero duration. *)
Lemma timing_defaults_counterexample :
  count (setupTime TransportInfo_default) <> -1 /\
  count (sslSetupTime TransportInfo_default) <> -1.
Proof. cbn. split; discriminate. Qed.

(** C7 (amended): on a freshly constructed snapshot every byte-relative
    latency (time to first header byte, to first byte, to last byte, ...)
    is a signed 32-bit count holding [-1]; the TCP and TLS setup durations
    are millisecond counts holding [0]; the handshake timestamp is the
    clock's epoch. *)
Theorem timing_defaults :
  let t := TransportInfo_default in
  Forall (fun x => cval x = -1 /\ ty_of x = c_int32) (latencies t) /\
  count (setupTime t) = 0 /\
  count (sslSetupTime t) = 0 /\
  count (time_since_epoch (acceptTime t)) = 0.
Proof.
  cbn. split; [ | repeat split ].
  repeat constructor.
Qed.

(** C8 (as stated, refuted): [totalBytes] is not an unsigned quantity; it
    is declared [int64_t], so a negative total is representable. *)
Lemma byte_counters_counterexample :
  is_signed (ty_of (totalBytes TransportInfo_default)) = true /\
  in_range (ty_of (totalBytes TransportInfo_default)) (-1) = true /\
  ~ Forall (fun c => is_signed (fst c) = false)
      (byte_counters TransportInfo_default).
Proof.
  repeat split.
  intros H. rewrite Forall_forall in H.
  specialize (H (c_int64, 0)). cbn in H.
  assert (Hin : true = false) by (apply H; tauto).
  discriminate.
Qed.

(** C8 (amended): on a freshly constructed snapshot every byte counter
    holds [0]; the header sizes and the body sizes are unsigned, the total
    number of bytes is a signed 64-bit integer. *)
Theorem byte_counters_default :
  let t := TransportInfo_default in
  Forall (fun c => snd c = 0) (byte_counters t) /\
  Forall (fun c => is_signed (fst c) = false) (size_counters t) /\
  ty_of (totalBytes t) = IntType true 64.
Proof.
  cbn. repeat split; repeat constructor.
Qed.

(** C10: the record has a maximum-segment-size member [mss], a signed
    64-bit integer that a freshly constructed snapshot holds at [-1]. *)
Theorem mss_default :
  cval (mss TransportInfo_default) = -1 /\
  ty_of (mss TransportInfo_default) = IntType true 64 /\
  in_range (ty_of (mss TransportInfo_default))
    (cval (mss TransportInfo_default)) = true.
Proof. repeat split. Qed.

(** ** getRttMs *)

Example getRttMs_1500 :
  count (getRttMs (TransportInfo_default <| rtt := Duration micro 1500 |>))
  = 1.
Proof. reflexivity. Qed.

Example getRttMs_1999 :
  count (getRttMs (TransportInfo_default <| rtt := Duration micro 1999 |>))
  = 1.
Proof. reflexivity. Qed.

Example getRttMs_negative :
  count (getRttMs
           (TransportInfo_default <| rtt := Duration micro (-1500) |>))
  = -1.
Proof. reflexivity. Qed.

Example getRttMs_default : count (getRttMs TransportInfo_default) = 0.
Proof. reflexivity. Qed.

Lemma quot_1000_cases (us : Z) :
  (0 <= us /\ Z.quot us 1000 = us / 1000) \/
  (us < 0 /\ Z.quot us 1000 = - (- us / 1000)).
Proof.
  destruct (Z_lt_le_dec us 0) as [Hneg | Hnn]; [ right | left ];
    (split; [ assumption | ]).
  - replace us with (- (- us)) at 1 by lia.
    rewrite Z.quot_opp_l by lia.
    rewrite Z.quot_div_nonneg by lia. reflexivity.
  - apply Z.quot_div_nonneg; lia.
Qed.

Lemma quot_1000_truncates (us : Z) :
  Z.abs (1000 * Z.quot us 1000) <= Z.abs us
    < Z.abs (1000 * Z.quot us 1000) + 1000.
Proof.
  destruct (quot_1000_cases us) as [[Hs Hq] | [Hs Hq]]; rewrite Hq;
    Z.div_mod_to_equations; lia.
Qed.

Lemma quot_1000_sign (us : Z) :
  Z.sgn (Z.quot us 1000) = Z.sgn us \/ Z.quot us 1000 = 0.
Proof.
  destruct (quot_1000_cases us) as [[Hs Hq] | [Hs Hq]]; rewrite Hq;
    Z.div_mod_to_equations; lia.
Qed.

(** C2: [getRttMs] is a function of the stored round-trip time alone: the
    count in microseconds divided by 1000 with truncation toward zero, so
    the result times 1000 never exceeds the stored value in magnitude and
    falls short of it by less than one millisecond.  It is defined for
    every stored value (zero and negative ones included); a stored 1,500
    microseconds gives 1 millisecond, where rounding would give 2; the
    snapshot is an argument only, the accessor returns no new snapshot. *)
Theorem getRttMs_truncates (t : TransportInfo) :
  let us := count (rtt t) in
  let ms := count (getRttMs t) in
  ms = Z.quot us 1000 /\
  Z.abs (1000 * ms) <= Z.abs us < Z.abs (1000 * ms) + 1000 /\
  (Z.sgn ms = Z.sgn us \/ ms = 0) /\
  getRttMs t = duration_cast milli (Duration micro us) /\
  count (getRttMs (t <| rtt := Duration micro 1500 |>)) = 1 /\
  count (getRttMs (t <| rtt := Duration micro 0 |>)) = 0 /\
  count (getRttMs (t <| rtt := Duration micro (-1) |>)) = 0.
Proof.
  cbv zeta. unfold getRttMs.
  rewrite duration_cast_micro_milli.
  split; [ reflexivity | ].
  split; [ apply quot_1000_truncates | ].
  split; [ apply quot_1000_sign | ].
  split.
  - destruct (rtt t); reflexivity.
  - repeat split.
Qed.

(** ** readRTT *)

Example readRTT_open :
  cval (readRTT linux_kernel open_socket) = 1500.
Proof. reflexivity. Qed.

Example readRTT_closed :
  cval (readRTT linux_kernel closed_socket) = -1.
Proof. reflexivity. Qed.

(** The probe on a socket that is there: the kernel's estimate (converted
    to [int64_t], unchanged when it fits) where the platform supports the
    query and the query succeeds, and [-1] otherwise. *)
Lemma readRTT_result (k : Kernel) (sock : AsyncSocket) :
  (exists us,
      platform k <> Unsupported /\
      sys_srtt k (getFd sock) = Answer us /\
      readRTT k sock = to_cint c_int64 us /\
      (if in_range c_int64 us then cval (readRTT k sock) = us else True)) \/
  ((platform k = Unsupported \/
    exists e, sys_srtt k (getFd sock) = Refused e) /\
   readRTT k sock = CInt c_int64 (-1)).
Proof.
  unfold readRTT.
  destruct (platform k) eqn:Hp;
    try (right; split; [ left; reflexivity | reflexivity ]);
    (destruct (sys_srtt k (getFd sock)) as [us | e] eqn:Hq;
     [ left; exists us; repeat split; try discriminate;
       destruct (in_range c_int64 us) eqn:Hr; trivial;
       cbn [cval to_cint]; apply wrap_in_range; [ reflexivity | exact Hr ]
     | right; split; [ right; exists e; reflexivity | reflexivity ] ]).
Qed.

Example deref_null_aborts :
  and_then (deref None) (fun s => Returned (readRTT linux_kernel s))
  = Aborted.
Proof. reflexivity. Qed.

Example readRTT_call_null :
  readRTT_call linux_kernel None = Returned (CInt c_int64 (-1)).
Proof. reflexivity. Qed.

Example readRTT_call_closed :
  readRTT_call linux_kernel (Some closed_socket)
  = Returned (CInt c_int64 (-1)).
Proof. reflexivity. Qed.

Example readRTT_call_open :
  readRTT_call linux_kernel (Some open_socket)
  = Returned (CInt c_int64 1500).
Proof. reflexivity. Qed.

Lemma to_cint_estimate (us : Z) :
  (0 <=? us) && in_range c_int64 us = true ->
  cval (to_cint c_int64 us) = us /\ cval (to_cint c_int64 us) <> -1.
Proof.
  intros H. apply andb_prop in H. destruct H as [Hnn Hr].
  apply Z.leb_le in Hnn. cbn [cval to_cint].
  rewrite (wrap_in_range c_int64 us) by (reflexivity || exact Hr).
  split; [ reflexivity | lia ].
Qed.

(** C4: for every socket pointer (null, closed and invalid ones included)
    and every kernel the call of [readRTT] returns: it never ends
    abnormally.  The value returned fits [int64_t]; it is the kernel's
    smoothed round-trip-time estimate in microseconds where the kernel
    gives one (exactly that estimate, and so never [-1], whenever the
    estimate is non-negative and fits), and it is [-1] where the pointer
    is null, the platform lacks the query or the query fails. *)
Theorem readRTT_call_returns (k : Kernel) (p : socket_ptr) :
  exists r : int64_t,
    readRTT_call k p = Returned r /\
    in_range c_int64 (cval r) = true /\
    match rtt_estimate k p with
    | Some us =>
        r = to_cint c_int64 us /\
        (if (0 <=? us) && in_range c_int64 us
         then cval r = us /\ cval r <> -1
         else True)
    | None => r = CInt c_int64 (-1)
    end.
Proof.
  destruct p as [s | ]; cbn [readRTT_call is_null deref and_then rtt_estimate].
  - exists (readRTT k s). split; [ reflexivity | ].
    unfold readRTT.
    destruct (platform k); cbn [tcp_diagnostics];
      try (split; reflexivity);
      (destruct (sys_srtt k (getFd s)) as [us | e];
       [ | split; reflexivity ];
       split; [ apply (wrap_range c_int64); reflexivity | ];
       split; [ reflexivity | ];
       destruct ((0 <=? us) && in_range c_int64 us) eqn:Hfit;
       [ apply to_cint_estimate; exact Hfit | exact I ]).
  - exists (CInt c_int64 (-1)). repeat split.
Qed.

(** ** The congestion-control name *)

Lemma isspace_NUL : isspace NUL = false.
Proof. reflexivity. Qed.

Lemma drop_spaces_suffix (l : list ascii) :
  exists pre, l = pre ++ drop_spaces l.
Proof.
  induction l as [ | c rest [pre IH] ]; cbn.
  - exists []. reflexivity.
  - destruct (isspace c).
    + exists (c :: pre). cbn. f_equal. exact IH.
    + exists []. reflexivity.
Qed.

Lemma drop_spaces_hd (l : list ascii) :
  isspace (hd NUL (drop_spaces l)) = false.
Proof.
  induction l as [ | c rest IH ]; cbn.
  - reflexivity.
  - destruct (isspace c) eqn:Hc; [ exact IH | exact Hc ].
Qed.

Lemma last_rev_hd (l : list ascii) (d : ascii) : last (rev l) d = hd d l.
Proof.
  destruct l as [ | c rest ]; cbn; [ reflexivity | apply last_last ].
Qed.

(** The trimmed text is a segment of the original one. *)
Lemma trim_segment (l : list ascii) :
  exists pre post, l = pre ++ trim l ++ post /\ drop_spaces l = trim l ++ post.
Proof.
  unfold trim.
  destruct (drop_spaces_suffix l) as [pre Hpre].
  destruct (drop_spaces_suffix (rev (drop_spaces l))) as [post Hpost].
  exists pre, (rev post).
  assert (Hmid : drop_spaces l
                 = rev (drop_spaces (rev (drop_spaces l))) ++ rev post).
  { rewrite <- rev_app_distr, <- Hpost, rev_involutive. reflexivity. }
  split; [ | exact Hmid ].
  rewrite <- Hmid. exact Hpre.
Qed.

Lemma trim_is_trimmed (l : list ascii) : is_trimmed (trim l) = true.
Proof.
  unfold is_trimmed. apply andb_true_intro. split; apply negb_true_iff.
  - destruct (trim_segment l) as (pre & post & _ & Hmid).
    pose proof (drop_spaces_hd l) as Hhd. rewrite Hmid in Hhd.
    destruct (trim l) as [ | c rest ]; [ apply isspace_NUL | exact Hhd ].
  - unfold trim. rewrite last_rev_hd. apply drop_spaces_hd.
Qed.

Lemma trim_In (l : list ascii) (c : ascii) : In c (trim l) -> In c l.
Proof.
  intros Hin. destruct (trim_segment l) as (pre & post & Hl & _).
  rewrite Hl. apply in_or_app. right. apply in_or_app. left. exact Hin.
Qed.

Lemma trim_length (l : list ascii) :
  (List.length (trim l) <= List.length l)%nat.
Proof.
  destruct (trim_segment l) as (pre & post & Hl & _).
  rewrite Hl at 2. rewrite !length_app. lia.
Qed.

Lemma c_str_no_NUL (buf : list ascii) : ~ In NUL (c_str buf).
Proof.
  induction buf as [ | c rest IH ]; cbn; [ tauto | ].
  destruct (Ascii.eqb c NUL) eqn:Hc; cbn; [ tauto | ].
  intros [Heq | Hin]; [ | tauto ].
  apply Ascii.eqb_neq in Hc. congruence.
Qed.

Lemma c_str_length (buf : list ascii) :
  (List.length (c_str buf) <= List.length buf)%nat.
Proof.
  induction buf as [ | c rest IH ]; cbn; [ lia | ].
  destruct (Ascii.eqb c NUL); cbn; lia.
Qed.

Lemma string_length_of_list (l : list ascii) :
  String.length (string_of_list_ascii l) = List.length l.
Proof. induction l as [ | c rest IH ]; cbn; congruence. Qed.

Lemma ca_name_of_ok (buf : list ascii) :
  is_trimmed (ca_name_of buf) = true /\
  ~ In NUL (ca_name_of buf) /\
  (List.length (ca_name_of buf) <= TCP_CA_NAME_MAX)%nat.
Proof.
  unfold ca_name_of. split; [ apply trim_is_trimmed | split ].
  - intros Hin. apply trim_In in Hin. exact (c_str_no_NUL _ Hin).
  - pose proof (trim_length (c_str (firstn TCP_CA_NAME_MAX buf))).
    pose proof (c_str_length (firstn TCP_CA_NAME_MAX buf)).
    pose proof (firstn_le_length TCP_CA_NAME_MAX buf).
    lia.
Qed.

Lemma c_str_clean (l rest : list ascii) :
  ~ In NUL l -> c_str l = l /\ c_str (l ++ NUL :: rest) = l.
Proof.
  induction l as [ | c l IH ]; cbn; intros Hnul; [ now split | ].
  destruct (Ascii.eqb c NUL) eqn:Hc.
  - apply Ascii.eqb_eq in Hc. subst c. tauto.
  - destruct IH as [IH1 IH2]; [ tauto | ]. rewrite IH1, IH2. now split.
Qed.

Lemma drop_spaces_id (l : list ascii) :
  isspace (hd NUL l) = false -> drop_spaces l = l.
Proof.
  destruct l as [ | c rest ]; cbn; [ reflexivity | ].
  intros Hc. rewrite Hc. reflexivity.
Qed.

Lemma trim_id (l : list ascii) : is_trimmed l = true -> trim l = l.
Proof.
  unfold is_trimmed, trim. intros Ht.
  apply andb_prop in Ht. destruct Ht as [Hhd Hlast].
  apply negb_true_iff in Hhd. apply negb_true_iff in Hlast.
  rewrite (drop_spaces_id l Hhd).
  rewrite drop_spaces_id; [ apply rev_involutive | ].
  rewrite <- last_rev_hd, rev_involutive. exact Hlast.
Qed.

(** A name of at most [TCP_CA_NAME_MAX] bytes without null bytes and
    without spaces at its ends is stored as it is, whether or not the
    buffer has room for the terminator. *)
Lemma ca_name_of_clean (name rest : list ascii) :
  ~ In NUL name ->
  is_trimmed name = true ->
  (List.length name <= TCP_CA_NAME_MAX)%nat ->
  ca_name_of (name ++ NUL :: rest) = name.
Proof.
  intros Hnul Ht Hlen. unfold ca_name_of.
  rewrite firstn_app, firstn_all2 by exact Hlen.
  destruct (TCP_CA_NAME_MAX - List.length name)%nat as [ | n ].
  - cbn [firstn]. rewrite app_nil_r.
    rewrite (proj1 (c_str_clean name [] Hnul)). apply trim_id, Ht.
  - cbn [firstn].
    rewrite (proj2 (c_str_clean name (firstn n rest) Hnul)).
    apply trim_id, Ht.
Qed.

Example ca_name_cubic :
  ca_name_of (list_ascii_of_string "cubic" ++ [NUL; "x"; "y"]%char)
  = list_ascii_of_string "cubic".
Proof. reflexivity. Qed.

Example ca_name_padded :
  ca_name_of (list_ascii_of_string " bbr  " ++ [NUL])
  = list_ascii_of_string "bbr".
Proof. reflexivity. Qed.

Example ca_name_full_length :
  ca_name_of (list_ascii_of_string "sixteen_byte_nam")
  = list_ascii_of_string "sixteen_byte_nam".
Proof. reflexivity. Qed.

(** C9: for every run of [readTcpCongestionControl], if it reports success
    the stored name is trimmed, non-empty, free of null bytes and at most
    [TCP_CA_NAME_MAX] bytes long; if it reports failure the name field is
    the empty string. *)
Theorem readTcpCongestionControl_name
    (k : Kernel) (sock : AsyncSocket) (t : TransportInfo) :
  let r := readTcpCongestionControl k sock t in
  let name := list_ascii_of_string (caAlgo (snd r)) in
  if fst r then
    is_trimmed name = true /\
    name <> [] /\
    ~ In NUL name /\
    (List.length name <= TCP_CA_NAME_MAX)%nat /\
    (String.length (caAlgo (snd r)) <= TCP_CA_NAME_MAX)%nat
  else caAlgo (snd r) = EmptyString.
Proof.
  cbv zeta. unfold readTcpCongestionControl.
  destruct (sys_congestion k (getFd sock)) as [buf | e]; [ | reflexivity ].
  fold (ca_name_of buf).
  destruct (ca_name_of_ok buf) as (Htrim & Hnul & Hlen).
  destruct (ca_name_of buf) as [ | c rest ] eqn:Hname; [ reflexivity | ].
  cbn [fst snd].
  replace (caAlgo (t <| caAlgo := string_of_list_ascii (c :: rest) |>))
    with (string_of_list_ascii (c :: rest)) by reflexivity.
  rewrite string_length_of_list, list_ascii_of_string_of_list_ascii.
  repeat split; trivial. discriminate.
Qed.

(** ** initWithSocket *)

(** Case analysis on what the kernel answers to the four queries of one
    call of [initWithSocket]. *)
Ltac split_probes k sock :=
  unfold initWithSocket, probeRtt, probeTcpInfo, probeCongestionControl,
    probeMaxPacingRate, readTcpCongestionControl, readMaxPacingRate,
    readTcpInfo, readRTT;
  destruct (platform k);
  cbn [tcp_diagnostics];
  destruct (sys_srtt k (getFd sock)) as [us | e_rtt];
  try match goal with
      | |- context [ Z.eqb (cval (to_cint c_int64 ?u)) (-1) ] =>
          destruct (Z.eqb (cval (to_cint c_int64 u)) (-1))
      end;
  cbn -[wrap ca_name_of];
  try match goal with
      | |- context [ sys_tcp_info k (getFd sock) ?b ] =>
          destruct (sys_tcp_info k (getFd sock) b) as [[ | e_info] buf]
      end;
  destruct (sys_congestion k (getFd sock)) as [name | e_ca];
  try match goal with
      | |- context [ ca_name_of ?b ] =>
          destruct (ca_name_of b) as [ | c0 rest0 ]
      end;
  destruct (sys_max_pacing_rate k (getFd sock)) as [rate | e_rate].

Lemma initWithSocket_validTcpinfo
    (k : Kernel) (sock : AsyncSocket) (t : TransportInfo) :
  validTcpinfo (snd (initWithSocket k sock t)) = tcp_info_query_ok k sock t.
Proof.
  unfold tcp_info_query_ok. destruct t.
  split_probes k sock; reflexivity.
Qed.

(** C3: a freshly constructed snapshot has the valid flag false, and after
    any sequence of [initWithSocket] calls the flag is true if and only if
    the TCP-info query of the last call succeeded. *)
Theorem validTcpinfo_iff_query_succeeded
    (last : option bool) (t : TransportInfo) :
  populated last t ->
  validTcpinfo TransportInfo_default = false /\
  (validTcpinfo t = true <-> last = Some true).
Proof.
  intros Hpop. split; [ reflexivity | ].
  destruct Hpop as [ | k sock last t _ ].
  - cbn. split; discriminate.
  - rewrite initWithSocket_validTcpinfo.
    split; intros H; [ now rewrite H | now injection H ].
Qed.

Lemma validTcpinfo_iff_query_succeeded_witness :
  validTcpinfo (snd (initWithSocket linux_kernel open_socket
                       TransportInfo_default)) = true.
Proof.
  apply (validTcpinfo_iff_query_succeeded (Some true)
           (snd (initWithSocket linux_kernel open_socket
                   TransportInfo_default))).
  - exact (populated_init linux_kernel open_socket None
             TransportInfo_default populated_fresh).
  - reflexivity.
Defined.

Example validTcpinfo_reset_after_failure :
  let t1 := snd (initWithSocket linux_kernel open_socket
                   TransportInfo_default) in
  let t2 := snd (initWithSocket linux_kernel closed_socket t1) in
  validTcpinfo t1 = true /\ validTcpinfo t2 = false /\
  tcpinfoErrno t2 = EBADF /\
  tcp_metrics t2 = tcp_metrics TransportInfo_default.
Proof. repeat split. Qed.

(** C5: every call of [initWithSocket] returns a result, whatever the
    probes meet.  A round-trip-time probe that fails leaves [rtt] at its
    default; a TCP-info probe that fails leaves the derived metrics at
    their defaults and the valid flag false and records the error code in
    [tcpinfoErrno]; a congestion-control probe that fails leaves the name
    empty; a pacing-rate probe that fails leaves [maxPacingRate] at [-1];
    unless the TCP-info query itself fails [tcpinfoErrno] is left as it
    was, whichever other probes fail.  A probe that succeeds stores its
    value beside the sentinels of those that failed, and such a mixed
    snapshot is returned with the success indicator set. *)
Theorem initWithSocket_failures_leave_sentinels :
  (forall (k : Kernel) (sock : AsyncSocket) (t : TransportInfo),
      let t' := snd (initWithSocket k sock t) in
      let fd := getFd sock in
      (if cval (readRTT k sock) =? -1
       then rtt t' = rtt TransportInfo_default
       else rtt t' = Duration micro (cval (readRTT k sock))) /\
      match gated k (sys_tcp_info k fd (tcpinfo t)) with
      | Some (Done, buf) =>
          validTcpinfo t' = true /\
          tcpinfo t' = buf /\
          tcp_metrics t' =
            map (to_cint c_int64)
              [ tcpi_rttvar buf; tcpi_total_retrans buf;
                tcpi_retransmits buf; tcpi_rto buf; tcpi_snd_cwnd buf;
                tcpi_snd_cwnd buf * tcpi_snd_mss buf; tcpi_snd_mss buf;
                tcpi_snd_ssthresh buf ] /\
          tcpinfoErrno t' = tcpinfoErrno t
      | Some (Failed e, _) =>
          validTcpinfo t' = false /\
          tcp_metrics t' = tcp_metrics TransportInfo_default /\
          tcpinfoErrno t' = e
      | None =>
          validTcpinfo t' = false /\
          tcp_metrics t' = tcp_metrics TransportInfo_default /\
          tcpinfoErrno t' = tcpinfoErrno t
      end /\
      match gated k (sys_congestion k fd) with
      | Some (Answer buf) =>
          caAlgo t' = string_of_list_ascii (ca_name_of buf)
      | Some (Refused _) | None => caAlgo t' = EmptyString
      end /\
      match gated k (sys_max_pacing_rate k fd) with
      | Some (Answer rate) => maxPacingRate t' = to_cint c_int32 rate
      | Some (Refused _) | None => maxPacingRate t' = CInt c_int32 (-1)
      end) /\
  (let r := initWithSocket partial_kernel open_socket TransportInfo_default in
   fst r = true /\
   count (rtt (snd r)) = 1500 /\
   caAlgo (snd r) = "bbr"%string /\
   validTcpinfo (snd r) = false /\
   tcpinfoErrno (snd r) = ENOTCONN /\
   tcp_metrics (snd r) = tcp_metrics TransportInfo_default /\
   cval (maxPacingRate (snd r)) = -1).
Proof.
  split; [ | cbn; repeat split ].
  intros k sock t. cbv zeta. unfold gated.
  destruct t.
  split_probes k sock; cbn; repeat split.
Qed.

(** C6: a call of [initWithSocket] changes none of the members outside the
    TCP and congestion ones: in particular the addresses, the security
    members and the byte counters of the snapshot are what they were. *)
Theorem initWithSocket_frame
    (k : Kernel) (sock : AsyncSocket) (t : TransportInfo) :
  let t' := snd (initWithSocket k sock t) in
  addresses t' = addresses t /\
  security t' = security t /\
  byte_counters t' = byte_counters t /\
  outside_tcp t' = outside_tcp t.
Proof.
  cbv zeta. destruct t.
  split_probes k sock; repeat split.
Qed.

(** * Further properties of the header *)

(** ** getRttMs on its whole domain *)

Lemma getRttMs_count (t : TransportInfo) :
  count (getRttMs t) = Z.quot (count (rtt t)) 1000.
Proof. reflexivity. Qed.

(** X1: [getRttMs] is monotone: a snapshot with a smaller or equal stored
    round-trip time never reports more milliseconds. *)
Theorem getRttMs_monotone (t1 t2 : TransportInfo) :
  count (rtt t1) <= count (rtt t2) ->
  count (getRttMs t1) <= count (getRttMs t2).
Proof.
  intros Hle. rewrite !getRttMs_count.
  apply Z.quot_le_mono; [ lia | exact Hle ].
Qed.

Lemma getRttMs_monotone_witness :
  count (getRttMs (TransportInfo_default <| rtt := Duration micro 999 |>))
  <= count (getRttMs
              (TransportInfo_default <| rtt := Duration micro 2500 |>)).
Proof.
  apply (getRttMs_monotone
           (TransportInfo_default <| rtt := Duration micro 999 |>)
           (TransportInfo_default <| rtt := Duration micro 2500 |>)).
  cbn. lia.
Defined.

(** X2: [getRttMs] is odd: negating the stored round-trip time negates the
    result, so negative values are truncated toward zero too (never toward
    minus infinity). *)
Theorem getRttMs_odd (t : TransportInfo) (us : Z) :
  count (getRttMs (t <| rtt := Duration micro (- us) |>))
  = - count (getRttMs (t <| rtt := Duration micro us |>)).
Proof.
  rewrite !getRttMs_count.
  change (Z.quot (- us) 1000 = - Z.quot us 1000).
  apply Z.quot_opp_l. lia.
Qed.

(** X3: [getRttMs] reports zero exactly for the stored values strictly
    between -1000 and 1000 microseconds: a real sub-millisecond round-trip
    time, the construction default and a stored -1 all read as 0 ms. *)
Theorem getRttMs_zero_iff (t : TransportInfo) :
  count (getRttMs t) = 0 <-> -1000 < count (rtt t) < 1000.
Proof.
  rewrite getRttMs_count.
  destruct (quot_1000_cases (count (rtt t))) as [[Hs Hq] | [Hs Hq]];
    rewrite Hq; split; intros H; Z.div_mod_to_equations; lia.
Qed.

(** X4: a round-trip time stored from a whole number of milliseconds (the
    lossless conversion to microseconds, which must fit the 64-bit
    representation) is 1000 times that number, fits, and is read back
    unchanged by [getRttMs]. *)
Theorem getRttMs_of_milliseconds (t : TransportInfo) (ms : milliseconds) :
  in_range c_int64 (1000 * count ms) = true ->
  let t' := t <| rtt := duration_cast micro ms |> in
  count (rtt t') = 1000 * count ms /\
  in_range c_int64 (count (rtt t')) = true /\
  getRttMs t' = ms.
Proof.
  intros Hfit. cbv zeta. destruct ms as [m]. cbn [count] in Hfit.
  assert (Hst : count (rtt (t <| rtt := duration_cast micro
                                          (Duration milli m) |>))
                = 1000 * m).
  { change (m * 1000 = 1000 * m). lia. }
  split; [ exact Hst | split ].
  - rewrite Hst. exact Hfit.
  - unfold getRttMs.
    change (Duration milli (Z.quot (m * 1000) 1000) = Duration milli m).
    f_equal. apply Z.quot_mul. lia.
Qed.

Lemma getRttMs_of_milliseconds_witness :
  getRttMs (TransportInfo_default
              <| rtt := duration_cast micro (Duration milli 42) |>)
  = Duration milli 42.
Proof.
  apply (getRttMs_of_milliseconds TransportInfo_default (Duration milli 42)).
  reflexivity.
Defined.

(** X5: [getRttMs] cannot overflow: for a stored round-trip time within
    the 64-bit range the result lies within plus or minus
    9,223,372,036,854,775 and so within the 64-bit range. *)
Theorem getRttMs_in_range (t : TransportInfo) :
  in_range c_int64 (count (rtt t)) = true ->
  -9223372036854775 <= count (getRttMs t) <= 9223372036854775 /\
  in_range c_int64 (count (getRttMs t)) = true.
Proof.
  intros Hr. rewrite getRttMs_count.
  unfold in_range in *. apply andb_prop in Hr. destruct Hr as [Hlo Hhi].
  apply Z.leb_le in Hlo. apply Z.leb_le in Hhi.
  change (min_val c_int64) with (-9223372036854775808) in *.
  change (max_val c_int64) with 9223372036854775807 in *.
  assert (Hb : -9223372036854775 <= Z.quot (count (rtt t)) 1000
               <= 9223372036854775).
  { destruct (quot_1000_cases (count (rtt t))) as [[Hs Hq] | [Hs Hq]];
      rewrite Hq; Z.div_mod_to_equations; lia. }
  split; [ exact Hb | ].
  apply andb_true_intro. split; apply Z.leb_le; lia.
Qed.

Lemma getRttMs_in_range_witness :
  in_range c_int64
    (count (getRttMs
              (TransportInfo_default
                 <| rtt := Duration micro 9223372036854775807 |>))) = true.
Proof.
  apply (getRttMs_in_range
           (TransportInfo_default
              <| rtt := Duration micro 9223372036854775807 |>)).
  reflexivity.
Defined.

(** X6: [getRttMs] against rounding down: it equals the floor of the
    stored microseconds over 1000, plus one exactly when the stored value
    is negative and not a whole number of milliseconds. *)
Theorem getRttMs_vs_floor (t : TransportInfo) :
  let us := count (rtt t) in
  count (getRttMs t)
  = us / 1000 + (if (us <? 0) && negb (us mod 1000 =? 0) then 1 else 0).
Proof.
  cbv zeta. rewrite getRttMs_count.
  destruct (quot_1000_cases (count (rtt t))) as [[Hs Hq] | [Hs Hq]];
    rewrite Hq;
    destruct (Z.ltb_spec (count (rtt t)) 0); try lia;
    destruct (Z.eqb_spec (count (rtt t) mod 1000) 0);
    cbn [andb negb]; Z.div_mod_to_equations; lia.
Qed.

(** X9: converting the result of [getRttMs] back to microseconds loses
    less than one millisecond, never moves away from zero, and gives the
    stored round-trip time back exactly when that is a whole number of
    milliseconds. *)
Theorem getRttMs_back_to_microseconds (t : TransportInfo) :
  let us := count (rtt t) in
  let back := count (duration_cast micro (getRttMs t)) in
  Z.abs (us - back) < 1000 /\
  Z.abs back <= Z.abs us /\
  (back = us <-> us mod 1000 = 0).
Proof.
  cbv zeta.
  change (count (duration_cast micro (getRttMs t)))
    with (Z.quot (count (rtt t)) 1000 * 1000).
  generalize (count (rtt t)). intros us.
  destruct (quot_1000_cases us) as [[Hs Hq] | [Hs Hq]]; rewrite Hq;
    (split; [ | split; [ | split; intros H ] ]);
    Z.div_mod_to_equations; lia.
Qed.

(** ** The default constructor *)

(** X7: the default member initialisers fit their types and follow one
    pattern: every integer member of a fresh snapshot holds -1 or 0 and
    lies in the range of its declared type, and every unsigned member
    holds 0 (the sentinel -1 is given to signed members only). *)
Theorem default_integers_well_typed :
  Forall (fun c =>
            in_range (fst c) (snd c) = true /\
            (snd c = -1 \/ snd c = 0) /\
            (if is_signed (fst c) then True else snd c = 0))
    (integer_members TransportInfo_default).
Proof.
  repeat (apply Forall_cons;
          [ split;
            [ reflexivity
            | split;
              [ (left; reflexivity) || (right; reflexivity)
              | exact I || reflexivity ] ]
          | ]).
  apply Forall_nil.
Qed.

(** X8: a fresh snapshot is blank: no nullable member holds a value, the
    three texts are empty, the three flags are false, and the security
    members carry the encoding documented for a transport that is not
    SSL. *)
Theorem default_is_blank :
  let t := TransportInfo_default in
  Forall (fun b => b = false) (nullable_members t) /\
  caAlgo t = EmptyString /\
  sslError t = EmptyString /\
  securityType t = EmptyString /\
  validTcpinfo t = false /\
  secure t = false /\
  tfoSucceded t = false /\
  non_ssl t = true.
Proof.
  cbn. repeat split. repeat constructor.
Qed.
